(** * Client.Options: the validating constructor of @hsuite/client-types

    A shallow embedding of [_Options] (client.models.options.model.ts) and of
    the slice of JavaScript it runs on: runtime values, [typeof], truthiness,
    [String.prototype.startsWith], property assignment on a heap object,
    [throw], and [new].

    TypeScript's parameter types are erased at run time, so the constructor
    is modelled on arbitrary JavaScript values; that is what its two guards
    are written for. *)

From Stdlib Require Import ZArith Ascii Floats.SpecFloat.
From stdpp Require Import gmap strings.

Local Open Scope string_scope.

(** ** JavaScript values *)

(** Heap addresses of objects. *)
Abbreviation loc := positive.

(** What [typeof] and [Array.isArray] can tell apart about an object. *)
Inductive ObjectKind : Set :=
  | OrdinaryObject
  | ArrayObject
  | FunctionObject.

(** A value is a primitive or a reference to a heap object.  Numbers are
    IEEE-754 doubles in their specification form; strings are sequences of
    characters, of which the code only ever inspects an ASCII prefix. *)
Inductive Value : Type :=
  | VUndefined
  | VNull
  | VBoolean (b : bool)
  | VNumber (x : spec_float)
  | VBigInt (z : Z)
  | VString (s : string)
  | VSymbol (id : positive)
  | VObject (k : ObjectKind) (l : loc).

(** [typeof v] *)
Definition typeof (v : Value) : string :=
  match v with
  | VUndefined => "undefined"
  | VNull => "object"
  | VBoolean _ => "boolean"
  | VNumber _ => "number"
  | VBigInt _ => "bigint"
  | VString _ => "string"
  | VSymbol _ => "symbol"
  | VObject FunctionObject _ => "function"
  | VObject _ _ => "object"
  end.

(** Truthiness, as used by [!v] and [if (v)]. *)
Definition ToBoolean (v : Value) : bool :=
  match v with
  | VUndefined | VNull => false
  | VBoolean b => b
  | VNumber (S754_zero _) | VNumber S754_nan => false
  | VNumber _ => true
  | VBigInt z => negb (z =? 0)%Z
  | VString s => negb (s =? EmptyString)
  | VSymbol _ => true
  | VObject _ _ => true
  end.

(** ** Heap, errors and the execution monad *)

(** An object is its own-property table; the heap maps addresses to objects. *)
Abbreviation object := (gmap string Value).
Abbreviation heap := (gmap loc (gmap string Value)).

(** [o.k]: a missing property reads as [undefined].  (The prototype of
    [_Options] carries none of the four fields.) *)
Definition Get (h : heap) (l : loc) (k : string) : Value :=
  default VUndefined (h !! l ≫= (.!! k)).

Inductive ErrorConstructor : Set := Error | TypeError.

(** The value carried by a [throw]. *)
Record ErrorObject : Set := mkError
  { error_constructor : ErrorConstructor;
    message : string }.

(** [new Error(msg)] *)
Definition new_Error (msg : string) : ErrorObject := mkError Error msg.

Inductive completion (A : Type) : Type :=
  | Normal (a : A)
  | Throw (e : ErrorObject).
Arguments Normal {A} a.
Arguments Throw {A} e.

(** A computation reads and updates the heap and either completes normally
    or throws. *)
Definition Exec (A : Type) : Type := heap → heap * completion A.

#[global] Instance Exec_ret : MRet Exec := λ A a h, (h, Normal a).
#[global] Instance Exec_bind : MBind Exec := λ A B f m h,
  match m h with
  | (h', Normal a) => f a h'
  | (h', Throw e) => (h', Throw e)
  end.

Definition throw {A : Type} (e : ErrorObject) : Exec A := λ h, (h, Throw e).

(** [this.k = v] on the existing object at [this]. *)
Definition PutValue (this : loc) (k : string) (v : Value) : Exec unit :=
  λ h, (alter (<[k := v]>) this h, Normal ()).

(** [v.startsWith(searchString)].  Only strings have the method; calling it
    on anything else is a [TypeError] in the model. *)
Definition startsWith (v : Value) (searchString : string) : Exec bool :=
  match v with
  | VString s => mret (String.prefix searchString s)
  | _ => throw (mkError TypeError "startsWith is not a function")
  end.

(** ** The model class *)

Module _Options.

(** [!operator || typeof operator !== 'object'] *)
Definition operator_rejected (operator : Value) : bool :=
  negb (ToBoolean operator) || negb (typeof operator =? "object").

(** [!baseUrl || typeof baseUrl !== 'string' || !baseUrl.startsWith('http')],
    with JavaScript's left-to-right short-circuit: the method call is only
    reached when the first two disjuncts are false. *)
Definition baseUrl_rejected (baseUrl : Value) : Exec bool :=
  if negb (ToBoolean baseUrl) then mret true
  else if negb (typeof baseUrl =? "string") then mret true
  else b ← startsWith baseUrl "http"; mret (negb b).

(** The constructor body, run on the freshly allocated [this]. *)
Definition constructor (this : loc) (environment operator baseUrl : Value)
  : Exec unit :=
  PutValue this "environment" environment;;
  (if operator_rejected operator
   then throw (new_Error "Invalid operator information")
   else mret ());;
  PutValue this "operator" operator;;
  rejected ← baseUrl_rejected baseUrl;
  (if rejected : bool
   then throw (new_Error "Invalid base URL")
   else mret ());;
  PutValue this "baseUrl" baseUrl.

(** [new _Options(environment, operator, baseUrl)]: allocate the object,
    run the constructor on it, and hand the reference out only on normal
    completion.  The four field declarations have no initializer, so before
    the body runs every field reads [undefined]: the object starts with an
    empty property table. *)
Definition new (environment operator baseUrl : Value) : Exec Value :=
  λ h,
    let this := fresh (dom h) in
    match constructor this environment operator baseUrl (<[this := ∅]> h) with
    | (h', Normal _) => (h', Normal (VObject OrdinaryObject this))
    | (h', Throw e) => (h', Throw e)
    end.

End _Options.

(** [Client.Options] extends [_Options] with an empty body: the implicit
    constructor forwards its arguments. *)
Module Client.
Definition new_Options := _Options.new.
End Client.

(** The fields of the structural contract [_IOptions], in declaration order. *)
Definition _IOptions_fields : list string :=
  ["enabled"; "environment"; "operator"; "baseUrl"].

(** The two failures the constructor raises, under the names the
    specification gives them. *)
Definition InvalidOperator : ErrorObject := new_Error "Invalid operator information".
Definition InvalidBaseUrl : ErrorObject := new_Error "Invalid base URL".

(** ** Sample values *)

Module Sample.
(** [LedgerId.TESTNET], an operator record, and the empty object [{}] and
    array [[]], living at addresses 1 to 4 of a small heap. *)
Definition TESTNET : Value := VObject OrdinaryObject 1.
Definition operator : Value := VObject OrdinaryObject 2.
Definition empty_object : Value := VObject OrdinaryObject 3.
Definition empty_array : Value := VObject ArrayObject 4.

Definition h0 : heap :=
  <[1%positive := {["_ledgerId" := VString "testnet"]}]>
  (<[2%positive := <["accountId" := VString "0.0.123456"]>
                   {["privateKey" := VString "302e020100300506032b657004220420"]}]>
  (<[3%positive := ∅]>
  {[4%positive := {["length" := VNumber (S754_zero false)]}]})).
End Sample.

(** ** Running the constructor

    The guards are decidable on the arguments alone, so a run of the
    constructor can be written out as a case split. *)

(** The pure reading of the base-URL guard: a non-empty string with prefix
    [http]. *)
Definition baseUrl_valid (baseUrl : Value) : bool :=
  match baseUrl with
  | VString s => negb (s =? EmptyString) && String.prefix "http" s
  | _ => false
  end.

(** An instance is fully populated when every field of the contract
    [_IOptions] reads as something other than [undefined]. *)
Definition fully_populated (h : heap) (this : loc) : Prop :=
  Forall (λ k, Get h this k ≠ VUndefined) _IOptions_fields.

(** "A fully populated instance, or no instance at all". *)
Definition all_four_or_nothing
    (environment operator baseUrl : Value) (h : heap) : Prop :=
  match _Options.new environment operator baseUrl h with
  | (h', Normal (VObject _ this)) => fully_populated h' this
  | (_, Normal _) => False
  | (_, Throw _) => True
  end.

(** ** Callers *)

(** Parameter binding of a call: the [i]-th parameter is the [i]-th
    argument, or [undefined] when the call passes fewer; arguments past the
    last parameter are dropped. *)
Definition argument (args : list Value) (i : nat) : Value :=
  default VUndefined (args !! i).

Module Call.

(** [new Client.Options(...args)].  The class body is empty, so its
    constructor is the implicit [constructor(...args) { super(...args) }],
    and [_Options] binds its three parameters from the list. *)
Definition new_Client_Options (args : list Value) : Exec Value :=
  Client.new_Options (argument args 0) (argument args 1) (argument args 2).

(** The documented way in, given an [IClient.IOptions] object [options]:
    [new Client.Options(options.environment, options.operator, options.baseUrl)]. *)
Definition from_IOptions (options : loc) : Exec Value :=
  λ h,
    new_Client_Options
      [Get h options "environment"; Get h options "operator";
       Get h options "baseUrl"] h.

End Call.

Module Readme.
(** The [options] literal of the usage example, at address 6 of the sample
    heap. *)
Definition options : loc := 6%positive.

Definition h1 : heap :=
  <[options := <["enabled" := VBoolean true]>
               (<["environment" := Sample.TESTNET]>
               (<["operator" := Sample.operator]>
               {["baseUrl" := VString "https://api.smartnode.example.com"]}))]>
  Sample.h0.
End Readme.

Section Runs.
Implicit Types (h : heap) (this l : loc) (k : string) (v : Value).

Lemma baseUrl_rejected_run baseUrl h :
  _Options.baseUrl_rejected baseUrl h = (h, Normal (negb (baseUrl_valid baseUrl))).
Proof.
  destruct baseUrl as [| |b|x|z|s|id|o l]; try reflexivity.
  - destruct b; reflexivity.
  - destruct x; reflexivity.
  - unfold _Options.baseUrl_rejected; simpl. destruct (z =? 0)%Z; reflexivity.
  - unfold _Options.baseUrl_rejected; simpl.
    destruct (s =? EmptyString); reflexivity.
  - destruct o; reflexivity.
Qed.

Lemma constructor_run this environment operator baseUrl h :
  _Options.constructor this environment operator baseUrl h =
    let h1 := alter (<["environment" := environment]>) this h in
    if _Options.operator_rejected operator then (h1, Throw InvalidOperator)
    else
      let h2 := alter (<["operator" := operator]>) this h1 in
      if baseUrl_valid baseUrl
      then (alter (<["baseUrl" := baseUrl]>) this h2, Normal ())
      else (h2, Throw InvalidBaseUrl).
Proof.
  unfold _Options.constructor, mbind, Exec_bind, PutValue; simpl.
  destruct (_Options.operator_rejected operator); [reflexivity|]; simpl.
  rewrite baseUrl_rejected_run.
  destruct (baseUrl_valid baseUrl); reflexivity.
Qed.
End Runs.

(** ** What the guards accept *)

Section Guards.
Implicit Types (v operator baseUrl : Value).

Lemma typeof_object_inv v :
  typeof v = "object" → v = VNull ∨ ∃ k l, v = VObject k l ∧ k ≠ FunctionObject.
Proof.
  destruct v as [| | | | | | |k l]; try discriminate; [by left|].
  destruct k; try discriminate; intros _; right; eauto.
Qed.

Lemma operator_accepted_iff operator :
  _Options.operator_rejected operator = false
  ↔ operator ≠ VNull ∧ typeof operator = "object".
Proof.
  split.
  - unfold _Options.operator_rejected.
    destruct operator as [| |b|x|z|s|id|[] l]; cbn; rewrite ?orb_true_r;
      try discriminate; intros _; by split.
  - intros [Hnull [->|(k & l & -> & Hk)]%typeof_object_inv]; [done|].
    by destruct k.
Qed.

Lemma operator_rejected_iff operator :
  _Options.operator_rejected operator = true
  ↔ operator = VNull ∨ operator = VUndefined ∨ typeof operator ≠ "object".
Proof.
  split.
  - destruct operator as [| | | | | | |[] l]; try discriminate; intros _;
      try (by left); try (by right; left); by right; right.
  - intros [->|[->|Hty]]; try reflexivity.
    destruct (_Options.operator_rejected operator) eqn:E; [done|].
    by apply operator_accepted_iff in E as [_ ?].
Qed.

Lemma baseUrl_valid_iff baseUrl :
  baseUrl_valid baseUrl = true
  ↔ ∃ s, baseUrl = VString s ∧ s ≠ EmptyString ∧ String.prefix "http" s = true.
Proof.
  split.
  - destruct baseUrl as [| | | | |s| |]; try discriminate; simpl.
    intros [Hne Hp]%andb_true_iff. exists s. split_and!; [done| |done].
    intros ->. discriminate.
  - intros (s & -> & Hne & Hp); simpl. rewrite Hp, andb_true_r.
    apply negb_true_iff, String.eqb_neq, Hne.
Qed.

Lemma baseUrl_invalid_iff baseUrl :
  baseUrl_valid baseUrl = false
  ↔ baseUrl = VNull ∨ baseUrl = VUndefined ∨ baseUrl = VString EmptyString
    ∨ typeof baseUrl ≠ "string"
    ∨ ∃ s, baseUrl = VString s ∧ String.prefix "http" s = false.
Proof.
  split.
  - destruct baseUrl as [| | | | |s| |[]]; simpl; intros H;
      try (by do 3 right; left).
    do 4 right. exists s. split; [done|].
    apply andb_false_iff in H as [H|H]; [|done].
    apply negb_false_iff, String.eqb_eq in H as ->. reflexivity.
  - intros [->|[->|[->|[Hty|(s & -> & Hp)]]]]; try reflexivity.
    + by destruct baseUrl.
    + simpl. by rewrite Hp, andb_false_r.
Qed.
End Guards.

(** ** Reading the instance back *)

Section Instance.
Implicit Types (h : heap) (this l : loc) (o : object) (k : string).

Lemma Get_insert h this o k :
  Get (<[this := o]> h) this k = default VUndefined (o !! k).
Proof. unfold Get. by rewrite lookup_insert_eq. Qed.

Lemma fresh_unallocated h : h !! fresh (dom h) = None.
Proof. apply not_elem_of_dom, is_fresh. Qed.

(** [new] in closed form: which object ends up at the fresh address, and
    how the call completes. *)
Lemma new_run environment operator baseUrl h :
  _Options.new environment operator baseUrl h =
    let this := fresh (dom h) in
    if _Options.operator_rejected operator
    then (<[this := {["environment" := environment]}]> h, Throw InvalidOperator)
    else if baseUrl_valid baseUrl
    then (<[this := <["baseUrl" := baseUrl]>
                     (<["operator" := operator]> {["environment" := environment]})]> h,
          Normal (VObject OrdinaryObject this))
    else (<[this := <["operator" := operator]> {["environment" := environment]}]> h,
          Throw InvalidBaseUrl).
Proof.
  unfold _Options.new. rewrite constructor_run. simpl.
  rewrite alter_insert_eq, insert_empty.
  destruct (_Options.operator_rejected operator); [reflexivity|].
  rewrite alter_insert_eq.
  destruct (baseUrl_valid baseUrl); [|reflexivity].
  by rewrite alter_insert_eq.
Qed.

(** Allocation and the constructor touch the fresh address only. *)
Lemma new_frame environment operator baseUrl h :
  delete (fresh (dom h)) (_Options.new environment operator baseUrl h).1 = h.
Proof.
  rewrite new_run; simpl.
  destruct (_Options.operator_rejected operator);
    [|destruct (baseUrl_valid baseUrl)]; simpl;
    apply delete_insert_id, fresh_unallocated.
Qed.
End Instance.

(** ** The guards on sample values *)

Example scenario2_empty_baseUrl :
  (_Options.new Sample.TESTNET Sample.operator (VString EmptyString) Sample.h0).2
  = Throw InvalidBaseUrl.
Proof. vm_compute. reflexivity. Qed.

Example function_operator_rejected :
  _Options.operator_rejected (VObject FunctionObject 7) = true.
Proof. reflexivity. Qed.

Example NaN_operator_rejected :
  _Options.operator_rejected (VNumber S754_nan) = true.
Proof. reflexivity. Qed.

Example bare_host_rejected :
  baseUrl_valid (VString "example.com") = false.
Proof. reflexivity. Qed.

Example httpx_accepted :
  baseUrl_valid (VString "httpx") = true.
Proof. reflexivity. Qed.

(** ** Properties of construction *)

(** C1. Given an operator that is a non-null value of object type and a base
    URL that is a non-empty string starting with [http], construction
    completes normally, and the instance reads back the three arguments
    exactly as they were passed. *)
Theorem valid_inputs_construct
    (environment operator : Value) (s : string) (h : heap) :
  operator ≠ VNull →
  typeof operator = "object" →
  s ≠ EmptyString →
  String.prefix "http" s = true →
  ∃ (this : loc) (h' : heap),
    _Options.new environment operator (VString s) h
      = (h', Normal (VObject OrdinaryObject this))
    ∧ Get h' this "environment" = environment
    ∧ Get h' this "operator" = operator
    ∧ Get h' this "baseUrl" = VString s.
Proof.
  intros Hnull Hobj Hne Hpre.
  assert (_Options.operator_rejected operator = false) as Hop
    by (apply operator_accepted_iff; done).
  assert (baseUrl_valid (VString s) = true) as Hurl
    by (apply baseUrl_valid_iff; eauto).
  eexists _, _. rewrite new_run, Hop, Hurl. cbv zeta.
  split; [reflexivity|]. by rewrite !Get_insert.
Qed.

Lemma valid_inputs_construct_scenario1 :
  ∃ (this : loc) (h' : heap),
    _Options.new Sample.TESTNET Sample.operator
        (VString "https://api.example.com") Sample.h0
      = (h', Normal (VObject OrdinaryObject this))
    ∧ Get h' this "environment" = Sample.TESTNET
    ∧ Get h' this "operator" = Sample.operator
    ∧ Get h' this "baseUrl" = VString "https://api.example.com".
Proof.
  apply (valid_inputs_construct Sample.TESTNET Sample.operator
           "https://api.example.com" Sample.h0).
  - discriminate.
  - reflexivity.
  - discriminate.
  - reflexivity.
Defined.

(** C2. An operator that is [null], [undefined] or not of object type makes
    construction throw [InvalidOperator], whatever the base URL is. *)
Theorem bad_operator_throws
    (environment operator baseUrl : Value) (h : heap) :
  operator = VNull ∨ operator = VUndefined ∨ typeof operator ≠ "object" →
  ∃ h' : heap,
    _Options.new environment operator baseUrl h = (h', Throw InvalidOperator).
Proof.
  intros Hop%operator_rejected_iff. eexists. by rewrite new_run, Hop.
Qed.

Lemma bad_operator_throws_scenario3 :
  ∃ h' : heap,
    _Options.new Sample.TESTNET VNull (VString "https://api.example.com") Sample.h0
      = (h', Throw InvalidOperator).
Proof.
  apply (bad_operator_throws Sample.TESTNET VNull
           (VString "https://api.example.com") Sample.h0).
  left. reflexivity.
Defined.

(** C3. With a valid operator, a base URL that is [null], [undefined], the
    empty string, not a string, or a string without the prefix [http] makes
    construction throw [InvalidBaseUrl]. *)
Theorem bad_baseUrl_throws
    (environment operator baseUrl : Value) (h : heap) :
  operator ≠ VNull →
  typeof operator = "object" →
  baseUrl = VNull ∨ baseUrl = VUndefined ∨ baseUrl = VString EmptyString
    ∨ typeof baseUrl ≠ "string"
    ∨ (∃ s, baseUrl = VString s ∧ String.prefix "http" s = false) →
  ∃ h' : heap,
    _Options.new environment operator baseUrl h = (h', Throw InvalidBaseUrl).
Proof.
  intros Hnull Hobj Hurl%baseUrl_invalid_iff.
  assert (_Options.operator_rejected operator = false) as Hop
    by (apply operator_accepted_iff; done).
  eexists. by rewrite new_run, Hop, Hurl.
Qed.

Lemma bad_baseUrl_throws_scenario4 :
  ∃ h' : heap,
    _Options.new Sample.TESTNET Sample.operator (VString "ftp://api.example.com")
        Sample.h0
      = (h', Throw InvalidBaseUrl).
Proof.
  apply (bad_baseUrl_throws Sample.TESTNET Sample.operator
           (VString "ftp://api.example.com") Sample.h0).
  - discriminate.
  - reflexivity.
  - do 4 right. exists "ftp://api.example.com". split; reflexivity.
Defined.

(** C4. The operator guard runs first.  When operator and base URL are both
    invalid the error is [InvalidOperator], which is a different error from
    [InvalidBaseUrl], and the run does not depend on the base URL at all:
    any other base URL gives the same final heap and the same completion. *)
Theorem operator_checked_first
    (environment operator baseUrl : Value) (h : heap) :
  operator = VNull ∨ operator = VUndefined ∨ typeof operator ≠ "object" →
  baseUrl = VNull ∨ baseUrl = VUndefined ∨ baseUrl = VString EmptyString
    ∨ typeof baseUrl ≠ "string"
    ∨ (∃ s, baseUrl = VString s ∧ String.prefix "http" s = false) →
  (∃ h' : heap,
     _Options.new environment operator baseUrl h = (h', Throw InvalidOperator))
  ∧ InvalidOperator ≠ InvalidBaseUrl
  ∧ ∀ baseUrl' : Value,
      _Options.new environment operator baseUrl' h
        = _Options.new environment operator baseUrl h.
Proof.
  intros Hop%operator_rejected_iff _. split_and!.
  - eexists. by rewrite new_run, Hop.
  - discriminate.
  - intros baseUrl'. by rewrite !new_run, Hop.
Qed.

Lemma operator_checked_first_both_null :
  (∃ h' : heap,
     _Options.new Sample.TESTNET VNull VNull Sample.h0 = (h', Throw InvalidOperator))
  ∧ InvalidOperator ≠ InvalidBaseUrl
  ∧ ∀ baseUrl' : Value,
      _Options.new Sample.TESTNET VNull baseUrl' Sample.h0
        = _Options.new Sample.TESTNET VNull VNull Sample.h0.
Proof.
  apply (operator_checked_first Sample.TESTNET VNull VNull Sample.h0).
  - left. reflexivity.
  - left. reflexivity.
Defined.

(** C5 as stated fails: scenario 5 completes normally, yet the instance it
    returns is not fully populated, because [enabled] reads [undefined]. *)
Lemma all_four_or_nothing_fails :
  ¬ all_four_or_nothing Sample.TESTNET Sample.empty_object (VString "http://x")
      Sample.h0.
Proof.
  unfold all_four_or_nothing. rewrite new_run. simpl.
  unfold fully_populated, _IOptions_fields.
  intros Hall. apply Forall_cons_1 in Hall as [Henabled _].
  apply Henabled. rewrite Get_insert. reflexivity.
Qed.

(** C5. Construction is all or nothing on the three constructor arguments.
    Either it completes normally with the fresh instance, both guards
    accepted their argument and [environment], [operator] and [baseUrl] read
    back as passed; or it throws, and what the caller gets is the error, not
    the instance.  Either way the rest of the heap is as it was before the
    call: the only address written is the fresh one. *)
Theorem construction_all_or_nothing
    (environment operator baseUrl : Value) (h : heap) :
  let this := fresh (dom h) in
  ∃ (h' : heap) (c : completion Value),
    _Options.new environment operator baseUrl h = (h', c)
    ∧ h !! this = None
    ∧ delete this h' = h
    ∧ ((c = Normal (VObject OrdinaryObject this)
        ∧ (operator ≠ VNull ∧ typeof operator = "object")
        ∧ (∃ s, baseUrl = VString s ∧ s ≠ EmptyString ∧ String.prefix "http" s = true)
        ∧ Get h' this "environment" = environment
        ∧ Get h' this "operator" = operator
        ∧ Get h' this "baseUrl" = baseUrl)
       ∨ (∃ e : ErrorObject, c = Throw e)).
Proof.
  intros this.
  exists (_Options.new environment operator baseUrl h).1,
         (_Options.new environment operator baseUrl h).2.
  split; [by destruct (_Options.new _ _ _ _)|].
  split; [apply fresh_unallocated|].
  split; [apply new_frame|].
  rewrite new_run. fold this. cbv zeta.
  destruct (_Options.operator_rejected operator) eqn:Hop; [right; by eexists|].
  destruct (baseUrl_valid baseUrl) eqn:Hurl; [left|right; by eexists].
  apply operator_accepted_iff in Hop. apply baseUrl_valid_iff in Hurl.
  simpl. by rewrite !Get_insert.
Qed.

(** *** What the constructor does not look at *)

Section Unchecked.
Implicit Types (h : heap) (this : loc) (k : string) (v : Value).

(** How the constructor completes is a function of [operator] and
    [baseUrl] alone. *)
Lemma constructor_completion this this' environment environment'
    operator baseUrl h h' :
  (_Options.constructor this environment operator baseUrl h).2
  = (_Options.constructor this' environment' operator baseUrl h').2.
Proof.
  rewrite !constructor_run. cbv zeta.
  destruct (_Options.operator_rejected operator); [reflexivity|].
  destruct (baseUrl_valid baseUrl); reflexivity.
Qed.

Lemma Get_alter_ne h this k k' v :
  k ≠ k' → Get (alter (<[k := v]>) this h) this k' = Get h this k'.
Proof.
  intros Hk. unfold Get. rewrite lookup_alter_eq.
  destruct (h !! this) as [o|]; simpl; [|reflexivity].
  by rewrite lookup_insert_ne.
Qed.

(** The constructor never assigns [this.enabled]. *)
Lemma constructor_keeps_enabled this environment operator baseUrl h :
  Get (_Options.constructor this environment operator baseUrl h).1 this "enabled"
  = Get h this "enabled".
Proof.
  rewrite constructor_run. cbv zeta.
  destruct (_Options.operator_rejected operator);
    [|destruct (baseUrl_valid baseUrl)]; simpl;
    by rewrite !Get_alter_ne.
Qed.
End Unchecked.

(** C6. [environment] and [enabled] are not validated.  Any [environment]
    value goes through and is stored as passed; how the constructor completes
    does not depend on [environment], nor on anything on the heap, so in
    particular not on an [enabled] property of [this]; and the constructor
    leaves [this.enabled] as it found it. *)
Theorem environment_and_enabled_unchecked
    (environment operator : Value) (s : string) (h : heap) :
  operator ≠ VNull →
  typeof operator = "object" →
  s ≠ EmptyString →
  String.prefix "http" s = true →
  (∃ (this : loc) (h' : heap),
     _Options.new environment operator (VString s) h
       = (h', Normal (VObject OrdinaryObject this))
     ∧ Get h' this "environment" = environment)
  ∧ (∀ (this : loc) (environment' operator' baseUrl' enabled : Value) (o : object),
       (_Options.constructor this environment' operator' baseUrl'
          (<[this := <["enabled" := enabled]> o]> h)).2
       = (_Options.constructor this environment operator' baseUrl'
            (<[this := o]> h)).2)
  ∧ (∀ (this : loc) (h1 : heap),
       Get (_Options.constructor this environment operator (VString s) h1).1
           this "enabled"
       = Get h1 this "enabled").
Proof.
  intros Hnull Hobj Hne Hpre. split_and!.
  - assert (_Options.operator_rejected operator = false) as Hop
      by (apply operator_accepted_iff; done).
    assert (baseUrl_valid (VString s) = true) as Hurl
      by (apply baseUrl_valid_iff; eauto).
    eexists _, _. rewrite new_run, Hop, Hurl. cbv zeta.
    split; [reflexivity|]. by rewrite Get_insert.
  - intros. apply constructor_completion.
  - intros. apply constructor_keeps_enabled.
Qed.

Lemma environment_and_enabled_unchecked_banana :
  (∃ (this : loc) (h' : heap),
     _Options.new (VString "banana") Sample.operator (VString "http://x") Sample.h0
       = (h', Normal (VObject OrdinaryObject this))
     ∧ Get h' this "environment" = VString "banana")
  ∧ (∀ (this : loc) (environment' operator' baseUrl' enabled : Value) (o : object),
       (_Options.constructor this environment' operator' baseUrl'
          (<[this := <["enabled" := enabled]> o]> Sample.h0)).2
       = (_Options.constructor this (VString "banana") operator' baseUrl'
            (<[this := o]> Sample.h0)).2)
  ∧ (∀ (this : loc) (h1 : heap),
       Get (_Options.constructor this (VString "banana") Sample.operator
              (VString "http://x") h1).1
           this "enabled"
       = Get h1 this "enabled").
Proof.
  apply (environment_and_enabled_unchecked (VString "banana") Sample.operator
           "http://x" Sample.h0).
  - discriminate.
  - reflexivity.
  - discriminate.
  - reflexivity.
Defined.

(** C7. The operator guard is shallow.  Every non-null value of object type
    passes it and is stored as passed; the property table of the object it
    refers to is not examined, so nothing is asked of [accountId] or
    [privateKey], and the object is left as it was.  The empty object [{}]
    of scenario 5 is the instance checked below. *)
Theorem operator_check_is_shallow
    (environment operator : Value) (s : string) (h : heap) :
  operator ≠ VNull →
  typeof operator = "object" →
  s ≠ EmptyString →
  String.prefix "http" s = true →
  _Options.operator_rejected operator = false
  ∧ ∃ (this : loc) (h' : heap),
      _Options.new environment operator (VString s) h
        = (h', Normal (VObject OrdinaryObject this))
      ∧ Get h' this "operator" = operator
      ∧ ∀ (k : ObjectKind) (l : loc) (o : object),
          operator = VObject k l → h !! l = Some o → h' !! l = Some o.
Proof.
  intros Hnull Hobj Hne Hpre.
  assert (_Options.operator_rejected operator = false) as Hop
    by (apply operator_accepted_iff; done).
  assert (baseUrl_valid (VString s) = true) as Hurl
    by (apply baseUrl_valid_iff; eauto).
  split; [done|].
  eexists _, _. rewrite new_run, Hop, Hurl. cbv zeta.
  split; [reflexivity|]. split; [by rewrite Get_insert|].
  intros k l o _ Hl. rewrite lookup_insert_ne; [done|].
  intros <-. by rewrite fresh_unallocated in Hl.
Qed.

Lemma operator_check_is_shallow_scenario5 :
  _Options.operator_rejected Sample.empty_object = false
  ∧ ∃ (this : loc) (h' : heap),
      _Options.new Sample.TESTNET Sample.empty_object (VString "http://x") Sample.h0
        = (h', Normal (VObject OrdinaryObject this))
      ∧ Get h' this "operator" = Sample.empty_object
      ∧ ∀ (k : ObjectKind) (l : loc) (o : object),
          Sample.empty_object = VObject k l →
          Sample.h0 !! l = Some o → h' !! l = Some o.
Proof.
  apply (operator_check_is_shallow Sample.TESTNET Sample.empty_object
           "http://x" Sample.h0).
  - discriminate.
  - reflexivity.
  - discriminate.
  - reflexivity.
Defined.

(** C8. After a successful construction [enabled] reads [undefined]: the
    constructor body never assigns it (it leaves [this.enabled] as it found
    it).  [undefined] is not a boolean, so the instance falls short of the
    contract's required [enabled: boolean].  Once the caller assigns a
    boolean to it the field holds that boolean and the other three fields
    are as constructed. *)
Theorem enabled_left_undefined
    (environment operator baseUrl : Value) (h h' : heap) (v : Value) :
  _Options.new environment operator baseUrl h = (h', Normal v) →
  ∃ this : loc,
    v = VObject OrdinaryObject this
    ∧ Get h' this "enabled" = VUndefined
    ∧ (∀ (this1 : loc) (h1 : heap),
         Get (_Options.constructor this1 environment operator baseUrl h1).1
             this1 "enabled"
         = Get h1 this1 "enabled")
    ∧ typeof (Get h' this "enabled") ≠ "boolean"
    ∧ ¬ fully_populated h' this
    ∧ ∀ b : bool,
        let h'' := (PutValue this "enabled" (VBoolean b) h').1 in
        Get h'' this "enabled" = VBoolean b
        ∧ Get h'' this "environment" = environment
        ∧ Get h'' this "operator" = operator
        ∧ Get h'' this "baseUrl" = baseUrl.
Proof.
  rewrite new_run. cbv zeta.
  destruct (_Options.operator_rejected operator); [discriminate|].
  destruct (baseUrl_valid baseUrl); [|discriminate].
  intros [= <- <-]. eexists. split; [reflexivity|].
  rewrite !Get_insert.
  split_and!; try done.
  - intros. apply constructor_keeps_enabled.
  - unfold fully_populated, _IOptions_fields.
    intros [Henabled _]%Forall_cons_1. apply Henabled.
    by rewrite Get_insert.
  - intros b. unfold PutValue; simpl.
    rewrite alter_insert_eq, !Get_insert. done.
Qed.

Lemma enabled_left_undefined_scenario1 :
  ∃ this : loc,
    VObject OrdinaryObject 5 = VObject OrdinaryObject this
    ∧ Get (_Options.new Sample.TESTNET Sample.operator
             (VString "https://api.example.com") Sample.h0).1 this "enabled"
      = VUndefined
    ∧ (∀ (this1 : loc) (h1 : heap),
         Get (_Options.constructor this1 Sample.TESTNET Sample.operator
                (VString "https://api.example.com") h1).1
             this1 "enabled"
         = Get h1 this1 "enabled")
    ∧ typeof (Get (_Options.new Sample.TESTNET Sample.operator
                     (VString "https://api.example.com") Sample.h0).1
                this "enabled") ≠ "boolean"
    ∧ ¬ fully_populated
          (_Options.new Sample.TESTNET Sample.operator
             (VString "https://api.example.com") Sample.h0).1 this
    ∧ ∀ b : bool,
        let h'' :=
          (PutValue this "enabled" (VBoolean b)
             (_Options.new Sample.TESTNET Sample.operator
                (VString "https://api.example.com") Sample.h0).1).1 in
        Get h'' this "enabled" = VBoolean b
        ∧ Get h'' this "environment" = Sample.TESTNET
        ∧ Get h'' this "operator" = Sample.operator
        ∧ Get h'' this "baseUrl" = VString "https://api.example.com".
Proof.
  apply (enabled_left_undefined Sample.TESTNET Sample.operator
           (VString "https://api.example.com") Sample.h0).
  vm_compute. reflexivity.
Defined.

(** C9. Arrays pass the operator guard: an array is truthy and its [typeof]
    is ["object"], so with a valid base URL construction completes normally
    and the instance's [operator] is the array. *)
Theorem array_operator_accepted
    (environment : Value) (l : loc) (s : string) (h : heap) :
  s ≠ EmptyString →
  String.prefix "http" s = true →
  ToBoolean (VObject ArrayObject l) = true
  ∧ typeof (VObject ArrayObject l) = "object"
  ∧ ∃ (this : loc) (h' : heap),
      _Options.new environment (VObject ArrayObject l) (VString s) h
        = (h', Normal (VObject OrdinaryObject this))
      ∧ Get h' this "operator" = VObject ArrayObject l.
Proof.
  intros Hne Hpre.
  assert (baseUrl_valid (VString s) = true) as Hurl
    by (apply baseUrl_valid_iff; eauto).
  split_and!; try reflexivity.
  eexists _, _. rewrite new_run, Hurl. simpl.
  split; [reflexivity|]. by rewrite Get_insert.
Qed.

Lemma array_operator_accepted_empty_array :
  ToBoolean Sample.empty_array = true
  ∧ typeof Sample.empty_array = "object"
  ∧ ∃ (this : loc) (h' : heap),
      _Options.new Sample.TESTNET Sample.empty_array (VString "http://x") Sample.h0
        = (h', Normal (VObject OrdinaryObject this))
      ∧ Get h' this "operator" = Sample.empty_array.
Proof.
  apply (array_operator_accepted Sample.TESTNET 4 "http://x" Sample.h0).
  - discriminate.
  - reflexivity.
Defined.

(** C10. A failed construction throws an [Error] carrying one of two fixed
    messages: ["Invalid operator information"], exactly when the operator is
    rejected, or ["Invalid base URL"], exactly when the operator is accepted
    and the base URL is rejected.  Nothing else is ever thrown; the
    [TypeError] of calling [startsWith] on a non-string is out of reach behind
    the [typeof] test. *)
Theorem failure_messages
    (environment operator baseUrl : Value) (h h' : heap) (e : ErrorObject) :
  _Options.new environment operator baseUrl h = (h', Throw e) →
  error_constructor e = Error
  ∧ ((message e = "Invalid operator information"
      ∧ e = InvalidOperator
      ∧ (operator = VNull ∨ operator = VUndefined ∨ typeof operator ≠ "object"))
     ∨ (message e = "Invalid base URL"
        ∧ e = InvalidBaseUrl
        ∧ (operator ≠ VNull ∧ typeof operator = "object")
        ∧ (baseUrl = VNull ∨ baseUrl = VUndefined ∨ baseUrl = VString EmptyString
           ∨ typeof baseUrl ≠ "string"
           ∨ (∃ s, baseUrl = VString s ∧ String.prefix "http" s = false)))).
Proof.
  rewrite new_run. cbv zeta.
  destruct (_Options.operator_rejected operator) eqn:Hop.
  - intros [= _ <-]. split; [reflexivity|]. left.
    by apply operator_rejected_iff in Hop.
  - destruct (baseUrl_valid baseUrl) eqn:Hurl; [discriminate|].
    intros [= _ <-]. split; [reflexivity|]. right.
    apply operator_accepted_iff in Hop. by apply baseUrl_invalid_iff in Hurl.
Qed.

Lemma failure_messages_scenario4 :
  error_constructor InvalidBaseUrl = Error
  ∧ ((message InvalidBaseUrl = "Invalid operator information"
      ∧ InvalidBaseUrl = InvalidOperator
      ∧ (Sample.operator = VNull ∨ Sample.operator = VUndefined
         ∨ typeof Sample.operator ≠ "object"))
     ∨ (message InvalidBaseUrl = "Invalid base URL"
        ∧ InvalidBaseUrl = InvalidBaseUrl
        ∧ (Sample.operator ≠ VNull ∧ typeof Sample.operator = "object")
        ∧ (VString "ftp://x" = VNull ∨ VString "ftp://x" = VUndefined
           ∨ VString "ftp://x" = VString EmptyString
           ∨ typeof (VString "ftp://x") ≠ "string"
           ∨ (∃ s, VString "ftp://x" = VString s
                   ∧ String.prefix "http" s = false)))).
Proof.
  apply (failure_messages Sample.TESTNET Sample.operator (VString "ftp://x")
           Sample.h0
           (_Options.new Sample.TESTNET Sample.operator (VString "ftp://x")
              Sample.h0).1
           InvalidBaseUrl).
  vm_compute. reflexivity.
Defined.

(** ** Further properties of the constructor *)

Section Inversion.
Implicit Types (h : heap) (this l : loc) (k : string) (v : Value).

Lemma new_Normal environment operator baseUrl h :
  _Options.operator_rejected operator = false →
  baseUrl_valid baseUrl = true →
  _Options.new environment operator baseUrl h
  = (<[fresh (dom h) := <["baseUrl" := baseUrl]>
                        (<["operator" := operator]>
                           {["environment" := environment]})]> h,
     Normal (VObject OrdinaryObject (fresh (dom h)))).
Proof. intros Hop Hurl. by rewrite new_run, Hop, Hurl. Qed.

Lemma new_Normal_inv environment operator baseUrl h h' v :
  _Options.new environment operator baseUrl h = (h', Normal v) →
  _Options.operator_rejected operator = false
  ∧ baseUrl_valid baseUrl = true
  ∧ v = VObject OrdinaryObject (fresh (dom h))
  ∧ h' = <[fresh (dom h) := <["baseUrl" := baseUrl]>
                            (<["operator" := operator]>
                               {["environment" := environment]})]> h.
Proof.
  rewrite new_run. cbv zeta.
  destruct (_Options.operator_rejected operator); [discriminate|].
  destruct (baseUrl_valid baseUrl); [|discriminate].
  by intros [= <- <-].
Qed.

Lemma prefix_append (p s : string) :
  String.prefix p s = true ↔ ∃ t, s = p +:+ t.
Proof.
  revert s. induction p as [|a p IH]; intros s.
  - split; [intros _; by exists s|intros _; by destruct s].
  - destruct s as [|b s]; simpl.
    + split; [discriminate|intros [t [=]]].
    + destruct (Ascii.ascii_dec a b) as [->|Hab].
      * rewrite IH. split; intros [t Ht]; exists t; [by rewrite Ht|].
        by injection Ht.
      * split; [discriminate|]. intros [t [= <- _]]. done.
Qed.

Lemma string_baseUrl_valid (s : string) :
  baseUrl_valid (VString s) = String.prefix "http" s.
Proof. by destruct s. Qed.
End Inversion.

(** X1. With an accepted operator, a string base URL is accepted exactly when
    it has the form ["http" + t]: nothing after the fourth character is
    looked at, so ["http"] alone and ["httpx"] pass as well as
    ["https://..."]. *)
Theorem string_baseUrl_accepted_iff
    (environment operator : Value) (s : string) (h : heap) :
  operator ≠ VNull →
  typeof operator = "object" →
  (∃ (h' : heap) (v : Value),
     _Options.new environment operator (VString s) h = (h', Normal v))
  ↔ ∃ t : string, s = "http" +:+ t.
Proof.
  intros Hnull Hobj.
  assert (_Options.operator_rejected operator = false) as Hop
    by (apply operator_accepted_iff; done).
  rewrite <- prefix_append, <- string_baseUrl_valid. split.
  - intros (h' & v & Hrun). by apply new_Normal_inv in Hrun as (_ & ? & _).
  - intros Hurl. eexists _, _. by apply new_Normal.
Qed.

Lemma string_baseUrl_accepted_iff_scenario1 :
  (∃ (h' : heap) (v : Value),
     _Options.new Sample.TESTNET Sample.operator
       (VString "https://api.example.com") Sample.h0 = (h', Normal v))
  ↔ ∃ t : string, "https://api.example.com" = "http" +:+ t.
Proof.
  apply (string_baseUrl_accepted_iff Sample.TESTNET Sample.operator
           "https://api.example.com" Sample.h0).
  - discriminate.
  - reflexivity.
Defined.

(** X2. Swapped arguments never get through: whenever a construction
    succeeds, the same call with [operator] and [baseUrl] exchanged throws
    [InvalidOperator]. *)
Theorem swapped_arguments_throw
    (environment operator baseUrl : Value) (h h' : heap) (v : Value) :
  _Options.new environment operator baseUrl h = (h', Normal v) →
  ∃ h'' : heap,
    _Options.new environment baseUrl operator h = (h'', Throw InvalidOperator).
Proof.
  intros (_ & Hurl & _)%new_Normal_inv.
  apply baseUrl_valid_iff in Hurl as (s & -> & _).
  assert (_Options.operator_rejected (VString s) = true) as Hswap
    by (apply operator_rejected_iff; right; right; done).
  eexists. by rewrite new_run, Hswap.
Qed.

Lemma swapped_arguments_throw_scenario1 :
  ∃ h'' : heap,
    _Options.new Sample.TESTNET (VString "https://api.example.com")
      Sample.operator Sample.h0
    = (h'', Throw InvalidOperator).
Proof.
  apply (swapped_arguments_throw Sample.TESTNET Sample.operator
           (VString "https://api.example.com") Sample.h0
           (_Options.new Sample.TESTNET Sample.operator
              (VString "https://api.example.com") Sample.h0).1
           (VObject OrdinaryObject 5)).
  vm_compute. reflexivity.
Defined.



(** X4. Instances do not interfere.  A construction that follows a
    successful one, whether it succeeds or throws, never hands out the
    earlier instance again and leaves that instance's three fields as they
    were. *)
Theorem later_construction_keeps_instance
    (e1 o1 u1 e2 o2 u2 : Value) (h h1 h2 : heap) (this1 : loc)
    (c : completion Value) :
  _Options.new e1 o1 u1 h = (h1, Normal (VObject OrdinaryObject this1)) →
  _Options.new e2 o2 u2 h1 = (h2, c) →
  (∀ k : ObjectKind, c ≠ Normal (VObject k this1))
  ∧ Get h2 this1 "environment" = e1
  ∧ Get h2 this1 "operator" = o1
  ∧ Get h2 this1 "baseUrl" = u1.
Proof.
  intros (_ & _ & [= ->] & ->)%new_Normal_inv Hsecond.
  set (this1 := fresh (dom h)) in *.
  set (h1 := <[this1 := _]> h) in *.
  assert (fresh (dom h1) ≠ this1) as Hfresh.
  { intros Heq. pose proof (fresh_unallocated h1) as Hnone.
    rewrite Heq in Hnone. unfold h1 in Hnone.
    by rewrite lookup_insert_eq in Hnone. }
  assert (h2 !! this1 = h1 !! this1) as Hkeep.
  { pose proof (new_frame e2 o2 u2 h1) as Hframe.
    rewrite Hsecond in Hframe. simpl in Hframe.
    transitivity (delete (fresh (dom h1)) h2 !! this1);
      [by rewrite lookup_delete_ne|by rewrite Hframe]. }
  split.
  - intros k ->. apply new_Normal_inv in Hsecond as (_ & _ & [= _ Heq] & _).
    by apply Hfresh.
  - unfold Get. rewrite Hkeep. fold (Get h1 this1 "environment").
    fold (Get h1 this1 "operator"). fold (Get h1 this1 "baseUrl").
    unfold h1. by rewrite !Get_insert.
Qed.

Lemma later_construction_keeps_instance_after_failure :
  (∀ k : ObjectKind, Throw InvalidOperator ≠ Normal (VObject k 5))
  ∧ Get (_Options.new (VString "x") VNull VNull
           (_Options.new Sample.TESTNET Sample.operator (VString "http://x")
              Sample.h0).1).1 5 "environment" = Sample.TESTNET
  ∧ Get (_Options.new (VString "x") VNull VNull
           (_Options.new Sample.TESTNET Sample.operator (VString "http://x")
              Sample.h0).1).1 5 "operator" = Sample.operator
  ∧ Get (_Options.new (VString "x") VNull VNull
           (_Options.new Sample.TESTNET Sample.operator (VString "http://x")
              Sample.h0).1).1 5 "baseUrl" = VString "http://x".
Proof.
  apply (later_construction_keeps_instance
           Sample.TESTNET Sample.operator (VString "http://x")
           (VString "x") VNull VNull Sample.h0
           (_Options.new Sample.TESTNET Sample.operator (VString "http://x")
              Sample.h0).1).
  - vm_compute. reflexivity.
  - vm_compute. reflexivity.
Defined.

(** X5. What a failed construction leaves behind on the object it abandons
    follows the order of the body: [environment] is assigned before the
    operator guard, [operator] between the two guards, [baseUrl] after the
    second.  So the abandoned object always has [environment] and never
    [baseUrl]; it has [operator] exactly when the failure is
    [InvalidBaseUrl]. *)
Theorem abandoned_object_fields
    (environment operator baseUrl : Value) (h h' : heap) (e : ErrorObject) :
  _Options.new environment operator baseUrl h = (h', Throw e) →
  let this := fresh (dom h) in
  Get h' this "environment" = environment
  ∧ Get h' this "baseUrl" = VUndefined
  ∧ (e = InvalidOperator → Get h' this "operator" = VUndefined)
  ∧ (e = InvalidBaseUrl → Get h' this "operator" = operator).
Proof.
  rewrite new_run. cbv zeta.
  destruct (_Options.operator_rejected operator).
  - intros [= <- <-]. rewrite !Get_insert. done.
  - destruct (baseUrl_valid baseUrl); [discriminate|].
    intros [= <- <-]. rewrite !Get_insert. done.
Qed.

Lemma abandoned_object_fields_scenario4 :
  let h' := (_Options.new Sample.TESTNET Sample.operator (VString "ftp://x")
               Sample.h0).1 in
  let this := fresh (dom Sample.h0) in
  Get h' this "environment" = Sample.TESTNET
  ∧ Get h' this "baseUrl" = VUndefined
  ∧ (InvalidBaseUrl = InvalidOperator → Get h' this "operator" = VUndefined)
  ∧ (InvalidBaseUrl = InvalidBaseUrl → Get h' this "operator" = Sample.operator).
Proof.
  apply (abandoned_object_fields Sample.TESTNET Sample.operator
           (VString "ftp://x") Sample.h0).
  vm_compute. reflexivity.
Defined.

(** ** Properties of the callers *)

Lemma prefix_http_valid (s : string) :
  String.prefix "http" s = true → baseUrl_valid (VString s) = true.
Proof. intros Hpre. by rewrite string_baseUrl_valid. Qed.

(** X6. The documented usage loses [enabled].  Building a [Client.Options]
    from the three fields of a well-formed options object gives a new object,
    other than [options], that agrees with it on [environment], [operator]
    and [baseUrl]; but whatever [options.enabled] holds, the instance's
    [enabled] reads [undefined].  The options object is not modified. *)
Theorem documented_usage_drops_enabled
    (options : loc) (o : object) (s : string) (h : heap) :
  h !! options = Some o →
  Get h options "operator" ≠ VNull →
  typeof (Get h options "operator") = "object" →
  Get h options "baseUrl" = VString s →
  String.prefix "http" s = true →
  ∃ (this : loc) (h' : heap),
    Call.from_IOptions options h = (h', Normal (VObject OrdinaryObject this))
    ∧ this ≠ options
    ∧ Get h' this "environment" = Get h options "environment"
    ∧ Get h' this "operator" = Get h options "operator"
    ∧ Get h' this "baseUrl" = Get h options "baseUrl"
    ∧ Get h' this "enabled" = VUndefined
    ∧ h' !! options = Some o.
Proof.
  intros Ho Hnull Hobj Hs Hpre.
  assert (_Options.operator_rejected (Get h options "operator") = false) as Hop
    by (apply operator_accepted_iff; done).
  assert (baseUrl_valid (Get h options "baseUrl") = true) as Hurl
    by (rewrite Hs; by apply prefix_http_valid).
  assert (fresh (dom h) ≠ options) as Hfresh.
  { intros <-. by rewrite fresh_unallocated in Ho. }
  eexists _, _. split.
  - unfold Call.from_IOptions, Call.new_Client_Options, Client.new_Options,
      argument; simpl.
    by apply new_Normal.
  - split_and!; try (by rewrite Get_insert); [done|].
    by rewrite lookup_insert_ne.
Qed.

Lemma documented_usage_drops_enabled_readme :
  ∃ (this : loc) (h' : heap),
    Call.from_IOptions Readme.options Readme.h1
      = (h', Normal (VObject OrdinaryObject this))
    ∧ this ≠ Readme.options
    ∧ Get h' this "environment" = Get Readme.h1 Readme.options "environment"
    ∧ Get h' this "operator" = Get Readme.h1 Readme.options "operator"
    ∧ Get h' this "baseUrl" = Get Readme.h1 Readme.options "baseUrl"
    ∧ Get h' this "enabled" = VUndefined
    ∧ h' !! Readme.options
      = Some (<["enabled" := VBoolean true]>
              (<["environment" := Sample.TESTNET]>
              (<["operator" := Sample.operator]>
              {["baseUrl" := VString "https://api.smartnode.example.com"]}))).
Proof.
  apply (documented_usage_drops_enabled Readme.options
           (<["enabled" := VBoolean true]>
            (<["environment" := Sample.TESTNET]>
            (<["operator" := Sample.operator]>
            {["baseUrl" := VString "https://api.smartnode.example.com"]})))
           "https://api.smartnode.example.com" Readme.h1).
  - vm_compute. reflexivity.
  - vm_compute. discriminate.
  - vm_compute. reflexivity.
  - vm_compute. reflexivity.
  - reflexivity.
Defined.

(** X7. [Client.Options] cannot be built from fewer than three arguments:
    the missing ones arrive as [undefined], so the call throws one of the two
    errors, and with fewer than two arguments it is [InvalidOperator]. *)
Theorem fewer_than_three_arguments_throw (args : list Value) (h : heap) :
  length args < 3 →
  ∃ (h' : heap) (e : ErrorObject),
    Call.new_Client_Options args h = (h', Throw e)
    ∧ (e = InvalidOperator ∨ e = InvalidBaseUrl)
    ∧ (length args < 2 → e = InvalidOperator).
Proof.
  intros Hlen.
  unfold Call.new_Client_Options, Client.new_Options, argument.
  destruct args as [|environment [|operator [|baseUrl args]]];
    simpl in Hlen; [| | |lia]; rewrite new_run; cbn.
  - eexists _, _. split; [reflexivity|]. split; auto.
  - eexists _, _. split; [reflexivity|]. split; auto.
  - destruct (_Options.operator_rejected operator);
      eexists _, _; (split; [reflexivity|]); split; auto; lia.
Qed.

Lemma fewer_than_three_arguments_throw_two :
  ∃ (h' : heap) (e : ErrorObject),
    Call.new_Client_Options [Sample.TESTNET; Sample.operator] Sample.h0
      = (h', Throw e)
    ∧ (e = InvalidOperator ∨ e = InvalidBaseUrl)
    ∧ (length [Sample.TESTNET; Sample.operator] < 2 → e = InvalidOperator).
Proof.
  apply (fewer_than_three_arguments_throw [Sample.TESTNET; Sample.operator]
           Sample.h0).
  simpl. lia.
Defined.

(** X8. Validated fields stay valid: constructing again from the three
    fields of an instance always succeeds, and yields a second object, other
    than the first, with the very same property table. *)
Theorem instance_fields_construct_again
    (environment operator baseUrl : Value) (h h' : heap) (this : loc) :
  _Options.new environment operator baseUrl h
    = (h', Normal (VObject OrdinaryObject this)) →
  ∃ (this2 : loc) (h2 : heap),
    _Options.new (Get h' this "environment") (Get h' this "operator")
                 (Get h' this "baseUrl") h'
      = (h2, Normal (VObject OrdinaryObject this2))
    ∧ this2 ≠ this
    ∧ is_Some (h2 !! this)
    ∧ h2 !! this2 = h2 !! this.
Proof.
  intros (Hop & Hurl & [= ->] & ->)%new_Normal_inv.
  set (this := fresh (dom h)). set (h' := <[this := _]> h).
  assert (Get h' this "environment" = environment) as ->
    by (unfold h'; by rewrite Get_insert).
  assert (Get h' this "operator" = operator) as ->
    by (unfold h'; by rewrite Get_insert).
  assert (Get h' this "baseUrl" = baseUrl) as ->
    by (unfold h'; by rewrite Get_insert).
  assert (fresh (dom h') ≠ this) as Hfresh.
  { intros Heq. pose proof (fresh_unallocated h') as Hnone.
    rewrite Heq in Hnone. unfold h' in Hnone.
    by rewrite lookup_insert_eq in Hnone. }
  eexists _, _. split; [by apply new_Normal|].
  split; [done|]. split.
  - rewrite lookup_insert_ne by done. unfold h'.
    rewrite lookup_insert_eq. by eexists.
  - rewrite lookup_insert_eq, lookup_insert_ne by done. unfold h'.
    by rewrite lookup_insert_eq.
Qed.

Lemma instance_fields_construct_again_scenario1 :
  ∃ (this2 : loc) (h2 : heap),
    _Options.new
      (Get (_Options.new Sample.TESTNET Sample.operator (VString "http://x")
              Sample.h0).1 5 "environment")
      (Get (_Options.new Sample.TESTNET Sample.operator (VString "http://x")
              Sample.h0).1 5 "operator")
      (Get (_Options.new Sample.TESTNET Sample.operator (VString "http://x")
              Sample.h0).1 5 "baseUrl")
      (_Options.new Sample.TESTNET Sample.operator (VString "http://x")
         Sample.h0).1
      = (h2, Normal (VObject OrdinaryObject this2))
    ∧ this2 ≠ 5%positive
    ∧ is_Some (h2 !! 5%positive)
    ∧ h2 !! this2 = h2 !! 5%positive.
Proof.
  apply (instance_fields_construct_again Sample.TESTNET Sample.operator
           (VString "http://x") Sample.h0).
  vm_compute. reflexivity.
Defined.

(** X9. In the base-URL guard the truthiness test never decides: every
    falsy value is rejected by the two tests that follow it anyway ([null],
    [undefined], [0], [NaN] and [false] are not strings, and the empty string
    does not start with [http]).  The guard computes the same as
    [typeof baseUrl !== 'string' || !baseUrl.startsWith('http')]. *)
Theorem baseUrl_truthiness_test_redundant (baseUrl : Value) (h : heap) :
  _Options.baseUrl_rejected baseUrl h
  = (if negb (typeof baseUrl =? "string") then mret true
     else b ← startsWith baseUrl "http"; mret (negb b)) h.
Proof.
  destruct baseUrl as [| |b|x|z|s|id|k l]; try reflexivity.
  - by destruct b.
  - by destruct x.
  - unfold _Options.baseUrl_rejected; simpl. by destruct (z =? 0)%Z.
  - by destruct s.
Qed.
